(** * MetSim tutorial: assembling forcing and state inputs from CSV exports

    A shallow embedding of the notebook "Creating input dataset for MetSim"
    (Reynolds Creek): the cells that build the forcing dataset for 2010 and
    the 90-day state dataset that precedes it.

    The notebook is straight-line pandas / numpy / xarray code.  The library
    operations it calls are modelled by their documented behaviour:
    - [Series.diff()]            : [Pandas.diff]
    - [a[start:]]                : [Numpy.slice_from]
    - [a * c]                    : [Numpy.mul_scalar]
    - [np.full(shape, v)]        : [Numpy.full]
    - [a[:, 0, 0] = v]           : [Numpy.setitem_t00] (with broadcasting)
    - [pd.date_range(s, e)]      : [Calendar.date_range]

    Numeric cells are binary64 in numpy.  Here a cell is either the missing
    marker [NaN] or a finite number carried as an exact rational, so that the
    arithmetic identities are stated without rounding error. *)

From Stdlib Require Import ZArith QArith Qcanon Lia.
From stdpp Require Import base numbers list strings gmap.

Local Open Scope Z_scope.

(** ** Cells *)

Inductive value : Type :=
  | NaN
  | Num (q : Qc).

Global Instance value_eq_dec : EqDecision value.
Proof. solve_decision. Defined.

Global Instance value_inhabited : Inhabited value := populate NaN.

(** A decimal literal of the source text, [n / d]. *)
Definition lit (n : Z) (d : positive) : value := Num (Q2Qc (n # d)).

Definition is_num (v : value) : Prop :=
  match v with NaN => False | Num _ => True end.

Global Instance is_num_dec v : Decision (is_num v).
Proof. destruct v; simpl; apply _. Defined.

(** IEEE arithmetic on cells: [NaN] is absorbing. *)
Definition vadd (a b : value) : value :=
  match a, b with Num x, Num y => Num (x + y)%Qc | _, _ => NaN end.

Definition vsub (a b : value) : value :=
  match a, b with Num x, Num y => Num (x - y)%Qc | _, _ => NaN end.

Definition vmul (a b : value) : value :=
  match a, b with Num x, Num y => Num (x * y)%Qc | _, _ => NaN end.

(** [sum(a)] of a one-dimensional array. *)
Definition vsum (a : list value) : value := foldr vadd (lit 0 1) a.

(** ** pandas *)

Module Pandas.

(** [Series.diff()]: the first entry has no predecessor and is [NaN];
    entry [i] is [s[i] - s[i-1]].  The result is as long as [s]. *)
Fixpoint diff_from (prev : value) (s : list value) : list value :=
  match s with
  | [] => []
  | x :: s' => vsub x prev :: diff_from x s'
  end.

Definition diff (s : list value) : list value :=
  match s with
  | [] => []
  | x :: s' => NaN :: diff_from x s'
  end.

End Pandas.

(** ** numpy *)

Module Numpy.

(** [a[start:]] for a one-dimensional array: a negative [start] counts
    from the end, and an out-of-range [start] is clamped, never an error. *)
Definition slice_from {A} (start : Z) (a : list A) : list A :=
  let n := Z.of_nat (length a) in
  let lo := if start <? 0 then Z.max 0 (n + start) else Z.min start n in
  drop (Z.to_nat lo) a.

(** [a * c] with a scalar [c]. *)
Definition mul_scalar (a : list value) (c : value) : list value :=
  (λ x, vmul x c) <$> a.

(** A three-dimensional array, indexed [time, lat, lon]. *)
Abbreviation ndarray3 := (list (list (list value))).

(** [np.full(shape, v)]. *)
Definition full (shape : nat * nat * nat) (v : value) : ndarray3 :=
  let '(n, nlat, nlon) := shape in
  replicate n (replicate nlat (replicate nlon v)).

(** The exceptions the modelled calls can raise. *)
Inductive exn : Type :=
  | KeyError (key : string)
  | ValueError
  | IndexError.

(** Broadcasting a one-dimensional right-hand side to [n] entries: equal
    length is taken as it is, a single entry is repeated, and every other
    length is "could not broadcast input array", a [ValueError]. *)
Definition broadcast_to (n : nat) (v : list value) : exn + list value :=
  if decide (length v = n) then inr v
  else match v with
       | [x] => inr (replicate n x)
       | _ => inl ValueError
       end.

Definition has00 (plane : list (list value)) : bool :=
  match plane with
  | (_ :: _) :: _ => true
  | _ => false
  end.

Definition set00 (x : value) (plane : list (list value)) : list (list value) :=
  match plane with
  | (_ :: row) :: rows => (x :: row) :: rows
  | _ => plane
  end.

(** [a[:, 0, 0] = v]: index [0] must exist on the second and third axes
    ([IndexError] otherwise), then [v] is broadcast along the first axis
    and written cell by cell. *)
Definition setitem_t00 (a : ndarray3) (v : list value) : exn + ndarray3 :=
  if forallb has00 a then
    match broadcast_to (length a) v with
    | inl e => inl e
    | inr v' => inr (zip_with set00 v' a)
    end
  else inl IndexError.

(** [a[t, 0, 0]]. *)
Definition get_t00 (a : ndarray3) (t : nat) : option value :=
  plane ← a !! t; row ← plane !! 0%nat; row !! 0%nat.

(** A series laid out along the first axis of an [n x 1 x 1] array. *)
Definition cells (v : list value) : ndarray3 := (λ x, [[x]]) <$> v.

End Numpy.

Export Numpy (exn, KeyError, ValueError, IndexError).

(** ** Calendar days and [pd.date_range] *)

Module Calendar.

Record date : Type := mkdate { year : Z; month : Z; day : Z }.

Global Instance date_eq_dec : EqDecision date.
Proof. solve_decision. Defined.

(** The literal ['m/d/yyyy'] of the source. *)
Definition mdy (m d y : Z) : date := mkdate y m d.

Definition is_leap (y : Z) : bool :=
  (y mod 4 =? 0) && (negb (y mod 100 =? 0) || (y mod 400 =? 0)).

Definition days_in_month (y m : Z) : Z :=
  if m =? 2 then (if is_leap y then 29 else 28)
  else if (m =? 4) || (m =? 6) || (m =? 9) || (m =? 11) then 30
  else 31.

Definition valid (d : date) : Prop :=
  1 ≤ month d ≤ 12 ∧ 1 ≤ day d ≤ days_in_month (year d) (month d).

Global Instance valid_dec d : Decision (valid d).
Proof. unfold valid. apply _. Defined.

(** Days before January 1st of year [y], in the proleptic Gregorian
    calendar. *)
Definition days_before_year (y : Z) : Z :=
  let p := y - 1 in p * 365 + p / 4 - p / 100 + p / 400.

(** Days of year [y] before the first day of month [m]. *)
Definition days_before_month (y m : Z) : Z :=
  match m with
  | 1 => 0 | 2 => 31 | 3 => 59 | 4 => 90 | 5 => 120 | 6 => 151
  | 7 => 181 | 8 => 212 | 9 => 243 | 10 => 273 | 11 => 304 | 12 => 334
  | _ => 0
  end + (if (2 <? m) && is_leap y then 1 else 0).

(** The day number of a date; January 1st of year 1 is day 1. *)
Definition toordinal (d : date) : Z :=
  days_before_year (year d) + days_before_month (year d) (month d) + day d.

(** The calendar day after [d]. *)
Definition next_day (d : date) : date :=
  if day d <? days_in_month (year d) (month d)
  then mkdate (year d) (month d) (day d + 1)
  else if month d <? 12
       then mkdate (year d) (month d + 1) 1
       else mkdate (year d + 1) 1 1.

Fixpoint days_from (d : date) (n : nat) : list date :=
  match n with
  | O => []
  | S n' => d :: days_from (next_day d) n'
  end.

(** [pd.date_range(start, stop)] with the default daily frequency: every
    day from [start] to [stop], both included; empty when [stop] is
    before [start]. *)
Definition date_range (start stop : date) : list date :=
  days_from start (Z.to_nat (toordinal stop - toordinal start + 1)).

(** A gap-free daily axis from [start] to [stop]. *)
Definition daily_axis (start stop : date) (axis : list date) : Prop :=
  length axis = Z.to_nat (toordinal stop - toordinal start + 1) ∧
  head axis = Some start ∧
  last axis = Some stop ∧
  ∀ i a b, axis !! i = Some a → axis !! S i = Some b →
           b = next_day a ∧ toordinal b = toordinal a + 1.

End Calendar.

Export Calendar (date, mkdate, mdy).

(** ** xarray datasets and the notebook's effects *)

(** A [DataFrame] as returned by [pd.read_csv]: its columns by label. *)
Abbreviation DataFrame := (gmap string (list value)).

(** [df[label]]. *)
Definition getitem (df : DataFrame) (label : string) : exn + list value :=
  match df !! label with
  | Some col => inr col
  | None => inl (KeyError label)
  end.

Record Dataset : Type := mkDataset {
  time : list date;
  lat : list value;
  lon : list value;
  data_vars : gmap string Numpy.ndarray3
}.

(** [xr.Dataset(coords=coords)]: coordinates only, no variable yet. *)
Definition xr_Dataset (time : list date) (lat lon : list value) : Dataset :=
  mkDataset time lat lon ∅.

(** A notebook cell works on one dataset object, which it mutates in place;
    an exception stops the cell and leaves the object as it is then. *)
Definition M (A : Type) : Type := Dataset → (exn + A) * Dataset.

Global Instance M_ret : MRet M := λ A x ds, (inr x, ds).

Global Instance M_bind : MBind M := λ A B f m ds,
  match m ds with
  | (inr x, ds') => f x ds'
  | (inl e, ds') => (inl e, ds')
  end.

Definition lift {A} (r : exn + A) : M A := λ ds, (r, ds).

(** [ds[name] = xr.DataArray(data=a, coords=coords, dims=dims, name=name)]. *)
Definition setvar (name : string) (a : Numpy.ndarray3) : M unit := λ ds,
  (inr (), mkDataset (time ds) (lat ds) (lon ds) (<[name := a]> (data_vars ds))).

(** [ds[name].values[:, 0, 0] = v]. *)
Definition assign_t00 (name : string) (v : list value) : M unit := λ ds,
  match data_vars ds !! name with
  | None => (inl (KeyError name), ds)
  | Some a =>
      match Numpy.setitem_t00 a v with
      | inl e => (inl e, ds)
      | inr a' =>
          (inr (), mkDataset (time ds) (lat ds) (lon ds) (<[name := a']> (data_vars ds)))
      end
  end.

(** [ds.to_netcdf(path)]: the content that is written. *)
Definition to_netcdf : M Dataset := λ ds, (inr ds, ds).

(** [for x in l: body(x)]. *)
Fixpoint for_each {A} (l : list A) (body : A → M unit) : M unit :=
  match l with
  | [] => mret ()
  | x :: l' => body x;; for_each l' body
  end.

(** The conversion factor of the source, [25.4] millimetres per inch. *)
Definition in_to_mm : Qc := Q2Qc (254 # 10).

(** The cumulative-to-incremental transform of the forcing cell,
    [df[col].diff().values[1:]]. *)
Definition cumulative_to_incremental (cumulative : list value) : list value :=
  Numpy.slice_from 1 (Pandas.diff cumulative).

(** ** The forcing dataset (year 2010) *)

Module Forcing.

Definition dates : list date := Calendar.date_range (mdy 1 1 2010) (mdy 12 31 2010).
Definition shape : nat * nat * nat := (length dates, 1%nat, 1%nat).

Definition lats : list value := [lit 4317 100].
Definition lons : list value := [lit (-11651) 100].

Definition prec_vals (col : list value) : list value :=
  Numpy.mul_scalar (cumulative_to_incremental col) (Num in_to_mm).

Definition tmin_vals (col : list value) : list value := Numpy.slice_from 1 col.
Definition tmax_vals (col : list value) : list value := Numpy.slice_from 1 col.

Definition script (precip_2010 temp_2010 : DataFrame) : M Dataset :=
  for_each ["prec"; "t_min"; "t_max"]
           (λ varname, setvar varname (Numpy.full shape NaN));;
  col ← lift (getitem precip_2010 "PREC.I-1 (in) ");
  assign_t00 "prec" (prec_vals col);;
  tmin ← lift (getitem temp_2010 "TMIN.D-1 (degC) ");
  tmax ← lift (getitem temp_2010 "TMAX.D-1 (degC) ");
  assign_t00 "t_min" (tmin_vals tmin);;
  assign_t00 "t_max" (tmax_vals tmax);;
  to_netcdf.

(** Outcome of the cells (the dataset written, or the exception) and the
    [met_data] object they leave behind. *)
Definition run (precip_2010 temp_2010 : DataFrame) : (exn + Dataset) * Dataset :=
  script precip_2010 temp_2010 (xr_Dataset dates lats lons).

Definition met_data (precip_2010 temp_2010 : DataFrame) : Dataset :=
  (run precip_2010 temp_2010).2.

End Forcing.

(** ** The state dataset (the 90 days before the run) *)

Module State.

Definition dates : list date := Calendar.date_range (mdy 10 3 2009) (mdy 12 31 2009).
Definition shape : nat * nat * nat := (length dates, 1%nat, 1%nat).

Definition lats : list value := [lit 4317 100].
Definition lons : list value := [lit (-11651) 100].

Definition prec_vals (col : list value) : list value :=
  Numpy.mul_scalar (Numpy.slice_from (-90) (Pandas.diff col)) (Num in_to_mm).

Definition tmin_vals (col : list value) : list value := Numpy.slice_from (-90) col.
Definition tmax_vals (col : list value) : list value := Numpy.slice_from (-90) col.

Definition script (precip_2009 temp_2009 : DataFrame) : M Dataset :=
  for_each ["prec"; "t_min"; "t_max"]
           (λ varname, setvar varname (Numpy.full shape NaN));;
  col ← lift (getitem precip_2009 "PREC.I-1 (in) ");
  assign_t00 "prec" (prec_vals col);;
  tmin ← lift (getitem temp_2009 "TMIN.D-1 (degC) ");
  tmax ← lift (getitem temp_2009 "TMAX.D-1 (degC) ");
  assign_t00 "t_min" (tmin_vals tmin);;
  assign_t00 "t_max" (tmax_vals tmax);;
  to_netcdf.

Definition run (precip_2009 temp_2009 : DataFrame) : (exn + Dataset) * Dataset :=
  script precip_2009 temp_2009 (xr_Dataset dates lats lons).

Definition state (precip_2009 temp_2009 : DataFrame) : Dataset :=
  (run precip_2009 temp_2009).2.

End State.

(** ** Sample inputs *)

(** Cumulative readings 0.0, 0.5, 0.5, 1.2 (inches). *)
Definition scenario_cumulative : list value :=
  [lit 0 1; lit 5 10; lit 5 10; lit 12 10].

(** Cumulative readings 0.5, 1.2, 0.1, 0.4: the counter restarts after the
    second reading. *)
Definition counter_reset : list value :=
  [lit 5 10; lit 12 10; lit 1 10; lit 4 10].

(** A precipitation file with two rows, 0.0 and 1.0 inches. *)
Definition two_row_precip : DataFrame :=
  {[ "PREC.I-1 (in) " := [lit 0 1; lit 1 1] ]}.

(** A precipitation file with a single row. *)
Definition one_row_precip : DataFrame :=
  {[ "PREC.I-1 (in) " := [lit 3 10] ]}.

(** A temperature column of 92 rows, row [k] (counted from 1) holding [k]. *)
Definition temp_92_rows : list value :=
  (λ k, Num (Q2Qc (Z.of_nat k # 1))) <$> seq 1 92.

(** A temperature file with 366 rows, -5 and 5 degrees on every day. *)
Definition full_year_temp : DataFrame :=
  <[ "TMIN.D-1 (degC) " := replicate 366 (lit (-5) 1) ]>
    {[ "TMAX.D-1 (degC) " := replicate 366 (lit 5 1) ]}.

(** A precipitation file with 366 rows, the total growing by 0.1 inch a day. *)
Definition full_year_precip : DataFrame :=
  {[ "PREC.I-1 (in) " := (λ k, Num (Q2Qc (Z.of_nat k # 10))) <$> seq 0 366 ]}.

(** ** The two cells in normal form

    Both cells have the same shape: create three [NaN]-filled variables,
    then look up and assign precipitation, then both temperatures.  The
    function below spells out their outcome case by case; it is only used to
    reason about [Forcing.run] and [State.run], which are proved equal to it. *)

Definition with_var (ds : Dataset) (name : string) (a : Numpy.ndarray3) : Dataset :=
  mkDataset (time ds) (lat ds) (lon ds) (<[name := a]> (data_vars ds)).

Definition outcome (dates : list date) (lats lons : list value)
    (pv tv xv : list value → list value) (precip temp : DataFrame)
  : (exn + Dataset) * Dataset :=
  let n := length dates in
  let blank := Numpy.cells (replicate n NaN) in
  let ds1 := with_var (with_var (with_var (xr_Dataset dates lats lons)
                                  "prec" blank) "t_min" blank) "t_max" blank in
  match precip !! "PREC.I-1 (in) " with
  | None => (inl (KeyError "PREC.I-1 (in) "), ds1)
  | Some col =>
    match Numpy.broadcast_to n (pv col) with
    | inl e => (inl e, ds1)
    | inr v1 =>
      let ds2 := with_var ds1 "prec" (Numpy.cells v1) in
      match temp !! "TMIN.D-1 (degC) " with
      | None => (inl (KeyError "TMIN.D-1 (degC) "), ds2)
      | Some tmin =>
        match temp !! "TMAX.D-1 (degC) " with
        | None => (inl (KeyError "TMAX.D-1 (degC) "), ds2)
        | Some tmax =>
          match Numpy.broadcast_to n (tv tmin) with
          | inl e => (inl e, ds2)
          | inr v2 =>
            let ds3 := with_var ds2 "t_min" (Numpy.cells v2) in
            match Numpy.broadcast_to n (xv tmax) with
            | inl e => (inl e, ds3)
            | inr v3 =>
              let ds4 := with_var ds3 "t_max" (Numpy.cells v3) in
              (inr ds4, ds4)
            end
          end
        end
      end
    end
  end.



(** [ds[name].values[t, 0, 0]]. *)
Definition cell (ds : Dataset) (name : string) (t : nat) : option value :=
  arr ← data_vars ds !! name; Numpy.get_t00 arr t.

(** The column a cell reads, empty when the label is absent. *)
Definition column (df : DataFrame) (label : string) : list value :=
  default [] (df !! label).

(** ** More sample inputs *)

(** A precipitation file whose column label lacks the trailing space. *)
Definition wrong_label_precip : DataFrame :=
  {[ "PREC.I-1 (in)" := (λ k, Num (Q2Qc (Z.of_nat k # 10))) <$> seq 0 366 ]}.

(** Cumulative readings 0.0, 0.5, missing, 1.2, 1.5. *)
Definition gap_cumulative : list value :=
  [lit 0 1; lit 5 10; NaN; lit 12 10; lit 15 10].

(** A temperature file of 92 rows, both columns holding the row number. *)
Definition short_temp : DataFrame :=
  <[ "TMIN.D-1 (degC) " := temp_92_rows ]>
    {[ "TMAX.D-1 (degC) " := temp_92_rows ]}.


(** ** Helper lemmas on the series operations *)

Section series_lemmas.

Lemma length_diff_from prev s :
  length (Pandas.diff_from prev s) = length s.
Proof. revert prev. induction s as [|x s IH]; intros prev; simpl; [done|]. by rewrite IH. Qed.

Lemma length_diff s : length (Pandas.diff s) = length s.
Proof. destruct s as [|x s]; simpl; [done|]. by rewrite length_diff_from. Qed.

Lemma diff_from_lookup_0 prev s x :
  s !! 0%nat = Some x → Pandas.diff_from prev s !! 0%nat = Some (vsub x prev).
Proof. destruct s; simpl; [done|]. by intros [= ->]. Qed.

Lemma diff_from_lookup_S prev s i a b :
  s !! i = Some a → s !! S i = Some b →
  Pandas.diff_from prev s !! S i = Some (vsub b a).
Proof.
  revert prev i. induction s as [|x s IH]; intros prev i Ha Hb; [done|].
  destruct i as [|i]; simpl in *.
  - injection Ha as ->. by apply diff_from_lookup_0.
  - by apply IH.
Qed.

Lemma diff_lookup_S s i a b :
  s !! i = Some a → s !! S i = Some b →
  Pandas.diff s !! S i = Some (vsub b a).
Proof.
  destruct s as [|x s]; [done|]. intros Ha Hb. simpl.
  destruct i as [|i]; simpl in *.
  - injection Ha as ->. by apply diff_from_lookup_0.
  - by apply diff_from_lookup_S.
Qed.

Lemma diff_lookup_0 s x : s !! 0%nat = Some x → Pandas.diff s !! 0%nat = Some NaN.
Proof. by destruct s. Qed.

Lemma slice_from_nonneg {A} (k : nat) (a : list A) :
  Numpy.slice_from (Z.of_nat k) a = drop k a.
Proof.
  unfold Numpy.slice_from.
  destruct (Z.ltb_spec (Z.of_nat k) 0) as [?|_]; [lia|].
  destruct (decide (k ≤ length a)%nat) as [Hle|Hgt].
  - by rewrite Z.min_l, Nat2Z.id by lia.
  - rewrite Z.min_r, Nat2Z.id by lia.
    rewrite !drop_ge; [done|lia..].
Qed.

Lemma slice_from_neg {A} (k : nat) (a : list A) :
  (0 < k)%nat →
  Numpy.slice_from (- Z.of_nat k) a = drop (length a - k) a.
Proof.
  intros Hk. unfold Numpy.slice_from.
  destruct (Z.ltb_spec (- Z.of_nat k) 0) as [_|?]; [|lia].
  f_equal. lia.
Qed.

Lemma cumulative_to_incremental_cons x s :
  cumulative_to_incremental (x :: s) = Pandas.diff_from x s.
Proof. unfold cumulative_to_incremental. by rewrite (slice_from_nonneg 1). Qed.

Lemma cumulative_to_incremental_length s :
  length (cumulative_to_incremental s) = (length s - 1)%nat.
Proof.
  destruct s as [|x s]; [done|].
  rewrite cumulative_to_incremental_cons, length_diff_from. simpl. lia.
Qed.

Lemma cumulative_to_incremental_lookup s i a b :
  s !! i = Some a → s !! S i = Some b →
  cumulative_to_incremental s !! i = Some (vsub b a).
Proof.
  intros Ha Hb. unfold cumulative_to_incremental.
  rewrite (slice_from_nonneg 1), lookup_drop. simpl.
  by apply diff_lookup_S.
Qed.

(** Telescoping, for a series of finite readings. *)
Lemma vsum_diff_from (prev : Qc) (s : list value) (lst : Qc) :
  Forall is_num s →
  last (Num prev :: s) = Some (Num lst) →
  vsum (Pandas.diff_from (Num prev) s) = Num (lst - prev)%Qc.
Proof.
  revert prev. induction s as [|x s IH]; intros prev Hnum Hlast.
  - injection Hlast as ->. unfold vsum, lit. simpl. f_equal.
    change (Q2Qc (0 # 1)) with 0%Qc. ring.
  - inversion Hnum as [|? ? Hx Hs]; subst.
    destruct x as [|q]; [done|].
    change (last (Num prev :: Num q :: s)) with (last (Num q :: s)) in Hlast.
    simpl. fold (vsum (Pandas.diff_from (Num q) s)).
    rewrite (IH q Hs Hlast). simpl. f_equal. ring.
Qed.

End series_lemmas.
(** ** Calendar lemmas *)

Section calendar_lemmas.
Import Calendar.

Lemma days_before_year_succ y :
  days_before_year (y + 1) = days_before_year y + 365 + (if is_leap y then 1 else 0).
Proof.
  unfold days_before_year, is_leap.
  replace (y + 1 - 1) with y by lia.
  destruct (Z.eqb_spec (y mod 4) 0) as [H4|H4];
    destruct (Z.eqb_spec (y mod 100) 0) as [H100|H100];
    destruct (Z.eqb_spec (y mod 400) 0) as [H400|H400];
    cbn [andb orb negb]; Z.div_mod_to_equations; lia.
Qed.

Lemma month_cases m :
  1 ≤ m ≤ 12 →
  m = 1 ∨ m = 2 ∨ m = 3 ∨ m = 4 ∨ m = 5 ∨ m = 6 ∨
  m = 7 ∨ m = 8 ∨ m = 9 ∨ m = 10 ∨ m = 11 ∨ m = 12.
Proof. lia. Qed.

Lemma days_before_month_succ y m :
  1 ≤ m < 12 →
  days_before_month y (m + 1) = days_before_month y m + days_in_month y m.
Proof.
  intros Hm. destruct (month_cases m) as [H|H]; [lia|..]; destruct_or?; subst m;
    try lia; unfold days_before_month, days_in_month; destruct (is_leap y); reflexivity.
Qed.

Lemma days_in_month_pos y m : 28 ≤ days_in_month y m ≤ 31.
Proof.
  unfold days_in_month.
  repeat match goal with |- context [if ?b then _ else _] => destruct b end; lia.
Qed.

Lemma toordinal_next_day d :
  valid d → toordinal (next_day d) = toordinal d + 1.
Proof.
  destruct d as [y m dd]. unfold valid, next_day, toordinal. cbn [year month day].
  intros [Hm Hd].
  destruct (Z.ltb_spec dd (days_in_month y m)) as [Hlt|Hge]; cbn [year month day]; [lia|].
  assert (dd = days_in_month y m) as -> by lia.
  destruct (Z.ltb_spec m 12) as [Hm12|Hm12]; cbn [year month day].
  - rewrite days_before_month_succ by lia. lia.
  - assert (m = 12) as -> by lia.
    rewrite days_before_year_succ.
    unfold days_before_month, days_in_month. destruct (is_leap y); simpl; lia.
Qed.

Lemma valid_next_day d : valid d → valid (next_day d).
Proof.
  destruct d as [y m dd]. unfold valid, next_day. cbn [year month day].
  intros [Hm Hd].
  destruct (Z.ltb_spec dd (days_in_month y m)) as [Hlt|Hge]; cbn [year month day]; [lia|].
  destruct (Z.ltb_spec m 12) as [Hm12|Hm12]; cbn [year month day].
  - pose proof (days_in_month_pos y (m + 1)). lia.
  - pose proof (days_in_month_pos (y + 1) 1). lia.
Qed.

Lemma length_days_from d n : length (days_from d n) = n.
Proof. revert d. induction n as [|n IH]; intros d; simpl; [done|]. by rewrite IH. Qed.

Lemma head_days_from d n : (0 < n)%nat → head (days_from d n) = Some d.
Proof. destruct n; [lia|done]. Qed.

Lemma days_from_step d n i a b :
  days_from d n !! i = Some a → days_from d n !! S i = Some b → b = next_day a.
Proof.
  revert d i. induction n as [|n IH]; intros d i Ha Hb; [done|].
  destruct i as [|i]; simpl in *.
  - injection Ha as <-. destruct n; simpl in Hb; [done|]. by injection Hb as <-.
  - by eapply IH.
Qed.

Lemma days_from_valid d n : valid d → Forall valid (days_from d n).
Proof.
  revert d. induction n as [|n IH]; intros d Hd; simpl; constructor; [done|].
  apply IH. by apply valid_next_day.
Qed.

Lemma days_from_toordinal d n i a :
  valid d → days_from d n !! i = Some a → toordinal a = toordinal d + Z.of_nat i.
Proof.
  revert d i. induction n as [|n IH]; intros d i Hd Ha; [done|].
  destruct i as [|i]; simpl in *.
  - injection Ha as <-. lia.
  - rewrite (IH _ _ (valid_next_day _ Hd) Ha), toordinal_next_day by done. lia.
Qed.

Lemma days_before_year_mono y1 y2 :
  y1 ≤ y2 → days_before_year y1 ≤ days_before_year y2.
Proof. unfold days_before_year. intros Hy. Z.div_mod_to_equations. lia. Qed.

(** The day of the year of a valid date lies within its year. *)
Lemma day_of_year_bounds d :
  valid d →
  1 ≤ days_before_month (year d) (month d) + day d
    ≤ 365 + (if is_leap (year d) then 1 else 0).
Proof.
  destruct d as [y m dd]. unfold valid. cbn [year month day]. intros [Hm Hd].
  destruct (month_cases m Hm); destruct_or?; subst m;
    unfold days_before_month, days_in_month in *; destruct (is_leap y);
    simpl in *; lia.
Qed.

Lemma days_before_month_lt y m1 m2 d1 :
  1 ≤ m1 → m1 < m2 ≤ 12 → d1 ≤ days_in_month y m1 →
  days_before_month y m1 + d1 ≤ days_before_month y m2.
Proof.
  intros H1 H2 Hd.
  destruct (month_cases m1) as [H|H]; [lia|..]; destruct_or?; subst m1;
    (destruct (month_cases m2) as [H|H]; [lia|..]; destruct_or?; subst m2; try lia);
    unfold days_before_month, days_in_month in *; destruct (is_leap y);
    simpl in *; lia.
Qed.

Lemma toordinal_inj d1 d2 :
  valid d1 → valid d2 → toordinal d1 = toordinal d2 → d1 = d2.
Proof.
  intros Hv1 Hv2 Heq.
  pose proof (day_of_year_bounds d1 Hv1) as B1.
  pose proof (day_of_year_bounds d2 Hv2) as B2.
  destruct d1 as [y1 m1 dd1], d2 as [y2 m2 dd2].
  unfold toordinal, valid in *. cbn [year month day] in *.
  assert (y1 = y2) as ->.
  { destruct (Z.lt_trichotomy y1 y2) as [Hlt|[->|Hgt]]; [exfalso|done|exfalso].
    - pose proof (days_before_year_succ y1).
      pose proof (days_before_year_mono (y1 + 1) y2). lia.
    - pose proof (days_before_year_succ y2).
      pose proof (days_before_year_mono (y2 + 1) y1). lia. }
  assert (m1 = m2) as ->.
  { destruct (Z.lt_trichotomy m1 m2) as [Hlt|[->|Hgt]]; [exfalso|done|exfalso].
    - pose proof (days_before_month_lt y2 m1 m2 dd1). lia.
    - pose proof (days_before_month_lt y2 m2 m1 dd2). lia. }
  f_equal. lia.
Qed.

Lemma last_date_range start stop :
  valid start → valid stop → toordinal start ≤ toordinal stop →
  last (date_range start stop) = Some stop.
Proof.
  intros Hv1 Hv2 Hle. unfold date_range.
  set (n := Z.to_nat _).
  assert (Hn : n = S (Z.to_nat (toordinal stop - toordinal start))) by lia.
  rewrite last_lookup, length_days_from, Hn. cbn [pred].
  destruct (days_from start (S (Z.to_nat (toordinal stop - toordinal start)))
              !! Z.to_nat (toordinal stop - toordinal start)) as [a|] eqn:Ha.
  - f_equal. apply toordinal_inj; [|done|].
    + exact (Forall_lookup_1 _ _ _ _ (days_from_valid start _ Hv1) Ha).
    + rewrite (days_from_toordinal _ _ _ _ Hv1 Ha). lia.
  - apply lookup_ge_None in Ha. rewrite length_days_from in Ha. lia.
Qed.

(** Every axis built by [date_range] between two valid dates in order is
    daily and gap-free. *)
Lemma date_range_daily start stop :
  valid start → valid stop → toordinal start ≤ toordinal stop →
  daily_axis start stop (date_range start stop).
Proof.
  intros Hv Hv2 Hle. pose proof (last_date_range _ _ Hv Hv2 Hle) as Hlast.
  unfold daily_axis, date_range in *.
  set (n := Z.to_nat _) in *.
  split; [apply length_days_from|].
  split; [apply head_days_from; lia|].
  split; [done|].
  intros i a b Ha Hb.
  pose proof (days_from_step _ _ _ _ _ Ha Hb) as ->.
  split; [done|]. apply toordinal_next_day.
  exact (Forall_lookup_1 _ _ _ _ (days_from_valid start _ Hv) Ha).
Qed.

End calendar_lemmas.

(** ** Array and dataset lemmas *)

Section array_lemmas.
Import Numpy.

Lemma length_cells v : length (cells v) = length v.
Proof. unfold cells. by rewrite length_fmap. Qed.

Lemma full_cells n x : full (n, 1%nat, 1%nat) x = cells (replicate n x).
Proof. unfold full, cells. by rewrite fmap_replicate. Qed.

Lemma cells_lookup v i : cells v !! i = (λ x, [[x]]) <$> (v !! i).
Proof. unfold cells. by rewrite list_lookup_fmap. Qed.

Lemma get_t00_cells v i : get_t00 (cells v) i = v !! i.
Proof. unfold get_t00. rewrite cells_lookup. by destruct (v !! i). Qed.

Lemma forallb_has00_cells v : forallb has00 (cells v) = true.
Proof. induction v as [|x v IH]; [done|]. simpl. exact IH. Qed.

Lemma zip_with_set00_cells v w :
  length v = length w → zip_with set00 v (cells w) = cells v.
Proof.
  revert w. induction v as [|x v IH]; intros [|y w] Hlen; simpl in *; try done.
  f_equal. apply IH. lia.
Qed.

Lemma broadcast_to_length n v v' : broadcast_to n v = inr v' → length v' = n.
Proof.
  unfold broadcast_to. case_decide as Hlen; [by intros [= <-]|].
  destruct v as [|x [|y v]]; intros [= <-]. apply length_replicate.
Qed.

Lemma broadcast_to_same n v : length v = n → broadcast_to n v = inr v.
Proof. intros Hn. unfold broadcast_to. by rewrite decide_True. Qed.

Lemma broadcast_to_single n x :
  n ≠ 1%nat → broadcast_to n [x] = inr (replicate n x).
Proof. intros Hn. unfold broadcast_to. rewrite decide_False; [done|]. simpl. lia. Qed.

Lemma broadcast_to_mismatch n v :
  length v ≠ n → length v ≠ 1%nat → broadcast_to n v = inl ValueError.
Proof.
  intros Hn H1. unfold broadcast_to. rewrite decide_False by done.
  by destruct v as [|x [|y v]].
Qed.


Lemma setitem_t00_cells w v :
  setitem_t00 (cells w) v =
  match broadcast_to (length w) v with
  | inl e => inl e
  | inr v' => inr (cells v')
  end.
Proof.
  unfold setitem_t00. rewrite forallb_has00_cells, length_cells.
  destruct (broadcast_to (length w) v) as [e|v'] eqn:Hb; [done|].
  f_equal. apply zip_with_set00_cells. by apply broadcast_to_length in Hb.
Qed.

End array_lemmas.

Section script_lemmas.
Import Numpy.

(** Runs one cell symbolically: every lookup of a variable finds the array
    assigned last, and every assignment goes through [broadcast_to]. *)
Ltac run_cell n :=
  cbv [mbind M_bind mret M_ret for_each setvar lift getitem assign_t00 to_netcdf
       xr_Dataset with_var data_vars time lat lon];
  repeat (first
    [ progress simplify_map_eq
    | rewrite (setitem_t00_cells (replicate n NaN)), length_replicate
    | match goal with
      | |- context [match ?df !! ?k with Some _ => _ | None => _ end] =>
          destruct (df !! k); [|reflexivity]
      | |- context [match broadcast_to n ?v with inl _ => _ | inr _ => _ end] =>
          destruct (broadcast_to n v); [reflexivity|]
      end ]);
  try reflexivity.

Lemma Forcing_run_outcome p t :
  Forcing.run p t =
  outcome Forcing.dates Forcing.lats Forcing.lons
          Forcing.prec_vals Forcing.tmin_vals Forcing.tmax_vals p t.
Proof.
  unfold Forcing.run, Forcing.script, outcome, Forcing.shape.
  rewrite full_cells.
  generalize (length Forcing.dates) as n; intros n.
  run_cell n.
Qed.

Lemma State_run_outcome p t :
  State.run p t =
  outcome State.dates State.lats State.lons
          State.prec_vals State.tmin_vals State.tmax_vals p t.
Proof.
  unfold State.run, State.script, outcome, State.shape.
  rewrite full_cells.
  generalize (length State.dates) as n; intros n.
  run_cell n.
Qed.

Context (dates : list date) (lats lons : list value).
Context (pv tv xv : list value → list value).

Local Abbreviation run := (outcome dates lats lons pv tv xv).
Local Abbreviation n := (length dates).

Lemma outcome_time p t : time (run p t).2 = dates.
Proof. unfold outcome. by repeat case_match. Qed.


Lemma outcome_success p t col tmin tmax :
  p !! "PREC.I-1 (in) " = Some col →
  t !! "TMIN.D-1 (degC) " = Some tmin →
  t !! "TMAX.D-1 (degC) " = Some tmax →
  length (pv col) = n → length (tv tmin) = n → length (xv tmax) = n →
  ∃ ds, run p t = (inr ds, ds) ∧
        data_vars ds !! "prec" = Some (cells (pv col)) ∧
        data_vars ds !! "t_min" = Some (cells (tv tmin)) ∧
        data_vars ds !! "t_max" = Some (cells (xv tmax)).
Proof.
  intros Hp Ht Hx L1 L2 L3. unfold outcome. rewrite Hp, Ht, Hx.
  rewrite !broadcast_to_same by done.
  eexists. split; [reflexivity|]. simpl. by simplify_map_eq.
Qed.

Lemma outcome_prec_mismatch p t col :
  p !! "PREC.I-1 (in) " = Some col →
  length (pv col) ≠ n → length (pv col) ≠ 1%nat →
  (run p t).1 = inl ValueError ∧
  data_vars (run p t).2 !! "prec" = Some (cells (replicate n NaN)).
Proof.
  intros Hp Hn H1. unfold outcome. rewrite Hp.
  rewrite broadcast_to_mismatch by done. simpl. by simplify_map_eq.
Qed.

End script_lemmas.

(** * Properties of the cumulative-to-incremental transform *)

(** C1.  For a column of [N >= 2] cumulative readings the transform drops the
    undefined first difference and returns exactly [N - 1] increments,
    [increment[i] = cumulative[i+1] - cumulative[i]]; when every reading is a
    number, the increments add up to [cumulative[-1] - cumulative[0]]. *)
Theorem cumulative_to_incremental_spec (cumulative : list value) :
  (2 ≤ length cumulative)%nat →
  Pandas.diff cumulative = NaN :: cumulative_to_incremental cumulative ∧
  length (cumulative_to_incremental cumulative) = (length cumulative - 1)%nat ∧
  (∀ i a b, cumulative !! i = Some a → cumulative !! S i = Some b →
     cumulative_to_incremental cumulative !! i = Some (vsub b a)) ∧
  (∀ first lst, Forall is_num cumulative →
     head cumulative = Some first → last cumulative = Some lst →
     vsum (cumulative_to_incremental cumulative) = vsub lst first).
Proof.
  intros HN. destruct cumulative as [|x s]; [simpl in HN; lia|].
  split; [by rewrite cumulative_to_incremental_cons|].
  split; [apply cumulative_to_incremental_length|].
  split; [intros i a b; apply cumulative_to_incremental_lookup|].
  intros first lst Hnum [= <-] Hlast.
  rewrite cumulative_to_incremental_cons.
  inversion Hnum as [|? ? Hx Hs]; subst.
  destruct x as [|q]; [done|].
  assert (is_num lst) as Hl.
  { apply last_Some in Hlast as [l' Hl']. rewrite Forall_forall in Hnum.
    apply Hnum. rewrite Hl'. set_solver. }
  destruct lst as [|ql]; [done|]. simpl.
  by apply vsum_diff_from.
Qed.

Lemma cumulative_to_incremental_spec_witness :
  (2 ≤ length scenario_cumulative)%nat ∧
  length (cumulative_to_incremental scenario_cumulative) = 3%nat ∧
  vsum (cumulative_to_incremental scenario_cumulative) = vsub (lit 12 10) (lit 0 1).
Proof.
  assert (H : (2 ≤ length scenario_cumulative)%nat) by (vm_compute; lia).
  destruct (cumulative_to_incremental_spec scenario_cumulative H) as (_ & Hlen & _ & Hsum).
  split; [exact H|]. split; [exact Hlen|].
  apply Hsum; [|reflexivity..].
  unfold scenario_cumulative. repeat constructor.
Defined.

(** C2.  Every increment is converted by one multiplication by 25.4, after
    the differencing, in the forcing cell and in the state cell alike; the
    cumulative readings 0.0, 0.5, 0.5, 1.2 inches give the increments
    0.5, 0.0, 0.7 inches and 12.7, 0.0, 17.78 millimetres. *)
Theorem inches_to_mm_once :
  (∀ col i x, cumulative_to_incremental col !! i = Some x →
     Forcing.prec_vals col !! i = Some (vmul x (lit 254 10))) ∧
  (∀ col i a b, col !! i = Some (Num a) → col !! S i = Some (Num b) →
     Forcing.prec_vals col !! i = Some (Num ((b - a) * in_to_mm))) ∧
  (∀ col i x, Numpy.slice_from (-90) (Pandas.diff col) !! i = Some x →
     State.prec_vals col !! i = Some (vmul x (lit 254 10))) ∧
  cumulative_to_incremental scenario_cumulative = [lit 5 10; lit 0 1; lit 7 10] ∧
  Forcing.prec_vals scenario_cumulative = [lit 127 10; lit 0 1; lit 1778 100].
Proof.
  split; [|split; [|split; [|split]]].
  - intros col i x Hx. unfold Forcing.prec_vals, Numpy.mul_scalar.
    by rewrite list_lookup_fmap, Hx.
  - intros col i a b Ha Hb. unfold Forcing.prec_vals, Numpy.mul_scalar.
    by rewrite list_lookup_fmap, (cumulative_to_incremental_lookup _ _ _ _ Ha Hb).
  - intros col i x Hx. unfold State.prec_vals, Numpy.mul_scalar.
    by rewrite list_lookup_fmap, Hx.
  - compute_done.
  - compute_done.
Qed.

Lemma inches_to_mm_once_witness :
  scenario_cumulative !! 2%nat = Some (Num (Q2Qc (5 # 10))) ∧
  scenario_cumulative !! 3%nat = Some (Num (Q2Qc (12 # 10))) ∧
  Forcing.prec_vals scenario_cumulative !! 2%nat
  = Some (Num ((Q2Qc (12 # 10) - Q2Qc (5 # 10)) * in_to_mm)).
Proof.
  split; [reflexivity|]. split; [reflexivity|].
  apply (proj1 (proj2 inches_to_mm_once) scenario_cumulative 2%nat); reflexivity.
Defined.

(** C7.  Where the cumulative column decreases (a counter reset), the
    negative difference is the increment, and its product with 25.4 is the
    value handed to the dataset: nothing is clamped or corrected. *)
Theorem negative_increment_passed_through (cumulative : list value) (i : nat) (a b : Qc) :
  cumulative !! i = Some (Num a) →
  cumulative !! S i = Some (Num b) →
  (b < a)%Qc →
  cumulative_to_incremental cumulative !! i = Some (Num (b - a)) ∧
  (b - a < 0)%Qc ∧
  Forcing.prec_vals cumulative !! i = Some (Num ((b - a) * in_to_mm)) ∧
  ((b - a) * in_to_mm < 0)%Qc.
Proof.
  intros Ha Hb Hlt.
  assert (Hneg : (b - a < 0)%Qc).
  { apply (Qcplus_lt_mono_r _ _ a). by replace (b - a + a)%Qc with b by ring;
      replace (0 + a)%Qc with a by ring. }
  split; [exact (cumulative_to_incremental_lookup _ _ _ _ Ha Hb)|].
  split; [exact Hneg|].
  split.
  - unfold Forcing.prec_vals, Numpy.mul_scalar.
    by rewrite list_lookup_fmap, (cumulative_to_incremental_lookup _ _ _ _ Ha Hb).
  - replace 0%Qc with (0 * in_to_mm)%Qc by ring.
    by apply Qcmult_lt_compat_r.
Qed.

Lemma negative_increment_passed_through_witness :
  counter_reset !! 1%nat = Some (Num (Q2Qc (12 # 10))) ∧
  counter_reset !! 2%nat = Some (Num (Q2Qc (1 # 10))) ∧
  (Q2Qc (1 # 10) < Q2Qc (12 # 10))%Qc ∧
  cumulative_to_incremental counter_reset !! 1%nat
  = Some (Num (Q2Qc (1 # 10) - Q2Qc (12 # 10))) ∧
  Forcing.prec_vals counter_reset !! 1%nat
  = Some (Num ((Q2Qc (1 # 10) - Q2Qc (12 # 10)) * in_to_mm)).
Proof.
  split; [reflexivity|]. split; [reflexivity|]. split; [reflexivity|].
  destruct (negative_increment_passed_through counter_reset 1%nat
              (Q2Qc (12 # 10)) (Q2Qc (1 # 10)))
    as (H1 & _ & H2 & _); [reflexivity..|].
  split; [exact H1|exact H2].
Defined.

(** * Properties of the spin-up window *)

Lemma slice_from_neg_last {A} (L : nat) (a : list A) :
  (0 < L ≤ length a)%nat →
  length (Numpy.slice_from (- Z.of_nat L) a) = L ∧
  a = take (length a - L) a ++ Numpy.slice_from (- Z.of_nat L) a.
Proof.
  intros [HL Hlen]. rewrite slice_from_neg by done. split.
  - rewrite length_drop. lia.
  - by rewrite take_drop.
Qed.

(** C3.  From a column of at least 90 rows the state cell keeps exactly the
    last 90 entries: of the differenced and converted precipitation series,
    and of the raw minimum and maximum temperature columns.  With 92
    temperature rows these are rows 3 to 92, the first two being dropped.
    The same holds of the slice [a[-L:]] for every lookback [L >= 1]. *)
Theorem spinup_window_is_last_90 :
  (∀ col, (90 ≤ length col)%nat →
     ∃ front window,
       Pandas.diff col = front ++ window ∧ length window = 90%nat ∧
       State.prec_vals col = Numpy.mul_scalar window (Num in_to_mm)) ∧
  (∀ col, (91 ≤ length col)%nat →
     ∃ front, Forcing.prec_vals col = front ++ State.prec_vals col) ∧
  (∀ col, (90 ≤ length col)%nat →
     length (State.tmin_vals col) = 90%nat ∧
     length (State.tmax_vals col) = 90%nat ∧
     ∃ front, col = front ++ State.tmin_vals col ∧
              col = front ++ State.tmax_vals col) ∧
  (∀ col, length col = 92%nat →
     State.tmin_vals col = drop 2 col ∧ State.tmax_vals col = drop 2 col ∧
     ∀ i, State.tmin_vals col !! i = col !! (2 + i)%nat) ∧
  (∀ (L : nat) (a : list value), (0 < L ≤ length a)%nat →
     length (Numpy.slice_from (- Z.of_nat L) a) = L ∧
     ∃ front, a = front ++ Numpy.slice_from (- Z.of_nat L) a).
Proof.
  split; [|split; [|split; [|split]]].
  - intros col Hlen. unfold State.prec_vals.
    destruct (slice_from_neg_last 90 (Pandas.diff col)) as [Hl Happ];
      [rewrite length_diff; lia|].
    change (- Z.of_nat 90) with (-90) in *.
    by exists (take (length (Pandas.diff col) - 90) (Pandas.diff col)),
              (Numpy.slice_from (-90) (Pandas.diff col)).
  - intros col Hlen. unfold State.prec_vals, Forcing.prec_vals, Numpy.mul_scalar.
    destruct col as [|x s]; [simpl in Hlen; lia|].
    rewrite cumulative_to_incremental_cons. simpl in Hlen.
    rewrite (slice_from_neg 90) by lia.
    simpl Pandas.diff. rewrite length_cons, length_diff_from.
    replace (S (length s) - 90)%nat with (S (length s - 90)) by lia.
    rewrite skipn_cons.
    exists ((λ x0, vmul x0 (Num in_to_mm)) <$> take (length s - 90) (Pandas.diff_from x s)).
    by rewrite <- fmap_app, take_drop.
  - intros col Hlen. unfold State.tmin_vals, State.tmax_vals.
    destruct (slice_from_neg_last 90 col) as [Hl Happ]; [lia|].
    change (- Z.of_nat 90) with (-90) in *.
    split; [done|]. split; [done|]. by exists (take (length col - 90) col).
  - intros col Hlen. unfold State.tmin_vals, State.tmax_vals.
    rewrite (slice_from_neg 90) by lia. rewrite Hlen.
    change (92 - 90)%nat with 2%nat.
    split; [done|]. split; [done|]. intros i. by rewrite lookup_drop.
  - intros L a HL. destruct (slice_from_neg_last L a HL) as [Hl Happ].
    split; [done|]. by eexists.
Qed.

Lemma spinup_window_is_last_90_witness :
  length temp_92_rows = 92%nat ∧
  State.tmin_vals temp_92_rows !! 0%nat = Some (lit 3 1) ∧
  State.tmin_vals temp_92_rows !! 89%nat = Some (lit 92 1) ∧
  State.tmin_vals temp_92_rows !! 90%nat = None.
Proof.
  assert (H : length temp_92_rows = 92%nat) by reflexivity.
  destruct (proj1 (proj2 (proj2 (proj2 spinup_window_is_last_90))) temp_92_rows H)
    as (_ & _ & Hrow).
  split; [exact H|]. rewrite !Hrow. repeat split; compute_done.
Defined.

(** * Properties of the time axes *)

Lemma Forcing_dates_daily :
  Calendar.daily_axis (mdy 1 1 2010) (mdy 12 31 2010) Forcing.dates.
Proof. apply date_range_daily; compute_done. Qed.

Lemma State_dates_daily :
  Calendar.daily_axis (mdy 10 3 2009) (mdy 12 31 2009) State.dates.
Proof. apply date_range_daily; compute_done. Qed.

Lemma Forcing_time p t : time (Forcing.met_data p t) = Forcing.dates.
Proof. unfold Forcing.met_data. rewrite Forcing_run_outcome. apply outcome_time. Qed.

Lemma State_time p t : time (State.state p t) = State.dates.
Proof. unfold State.state. rewrite State_run_outcome. apply outcome_time. Qed.

(** C4.  Whatever the CSV files contain, the time axis of the state dataset
    ends on 2009-12-31, the calendar day before the first day of the forcing
    dataset, 2010-01-01: the next day after the last state day is the first
    forcing day (no gap), every state day is earlier than every forcing day
    (no overlap), and the state axis has 90 days. *)
Theorem state_axis_ends_day_before_forcing (precip_2009 temp_2009 precip_2010 temp_2010 : DataFrame) :
  let state_time := time (State.state precip_2009 temp_2009) in
  let forcing_time := time (Forcing.met_data precip_2010 temp_2010) in
  ∃ last_state first_forcing,
    last state_time = Some last_state ∧
    head forcing_time = Some first_forcing ∧
    Calendar.next_day last_state = first_forcing ∧
    Calendar.toordinal first_forcing = Calendar.toordinal last_state + 1 ∧
    Forall (λ d, Calendar.toordinal d < Calendar.toordinal first_forcing) state_time ∧
    Forall (λ d, Calendar.toordinal first_forcing ≤ Calendar.toordinal d) forcing_time ∧
    length state_time = 90%nat ∧
    (90 ≤ length state_time)%nat.
Proof.
  intros state_time forcing_time. subst state_time forcing_time.
  rewrite State_time, Forcing_time.
  exists (mdy 12 31 2009), (mdy 1 1 2010).
  repeat split; compute_done.
Qed.

(** C8.  Whatever the CSV files contain, the time axis of the forcing dataset
    and that of the state dataset are daily and gap-free: each starts on its
    start date, ends on its end date, has as many entries as there are days
    from the one to the other inclusive (365 and 90), and every entry is the
    calendar day after its predecessor.  Neither axis has a pair of
    consecutive entries that are not one day apart: the condition under
    which a gap would be reported never arises. *)
Theorem time_axes_daily_gap_free (precip_2009 temp_2009 precip_2010 temp_2010 : DataFrame) :
  Calendar.daily_axis (mdy 1 1 2010) (mdy 12 31 2010)
                      (time (Forcing.met_data precip_2010 temp_2010)) ∧
  length (time (Forcing.met_data precip_2010 temp_2010)) = 365%nat ∧
  Calendar.daily_axis (mdy 10 3 2009) (mdy 12 31 2009)
                      (time (State.state precip_2009 temp_2009)) ∧
  length (time (State.state precip_2009 temp_2009)) = 90%nat ∧
  ¬ (∃ i a b, time (Forcing.met_data precip_2010 temp_2010) !! i = Some a ∧
              time (Forcing.met_data precip_2010 temp_2010) !! S i = Some b ∧
              Calendar.toordinal b ≠ Calendar.toordinal a + 1) ∧
  ¬ (∃ i a b, time (State.state precip_2009 temp_2009) !! i = Some a ∧
              time (State.state precip_2009 temp_2009) !! S i = Some b ∧
              Calendar.toordinal b ≠ Calendar.toordinal a + 1).
Proof.
  rewrite State_time, Forcing_time.
  pose proof Forcing_dates_daily as HF. pose proof State_dates_daily as HS.
  split; [exact HF|]. split; [compute_done|].
  split; [exact HS|]. split; [compute_done|].
  split.
  - intros (i & a & b & Ha & Hb & Hne).
    destruct HF as (_ & _ & _ & Hstep). by destruct (Hstep i a b Ha Hb).
  - intros (i & a & b & Ha & Hb & Hne).
    destruct HS as (_ & _ & _ & Hstep). by destruct (Hstep i a b Ha Hb).
Qed.

(** * Properties of the assignment into the dataset *)


Lemma Forcing_prec_mismatch p t col :
  p !! "PREC.I-1 (in) " = Some col →
  length (Forcing.prec_vals col) ≠ length Forcing.dates →
  length (Forcing.prec_vals col) ≠ 1%nat →
  (Forcing.run p t).1 = inl ValueError ∧
  data_vars (Forcing.met_data p t) !! "prec" = Some (Numpy.full Forcing.shape NaN).
Proof.
  intros Hp Hn H1. unfold Forcing.met_data, Forcing.shape.
  rewrite Forcing_run_outcome, full_cells.
  by apply (outcome_prec_mismatch _ _ _ _ _ _ p t col).
Qed.

Lemma State_prec_mismatch p t col :
  p !! "PREC.I-1 (in) " = Some col →
  length (State.prec_vals col) ≠ length State.dates →
  length (State.prec_vals col) ≠ 1%nat →
  (State.run p t).1 = inl ValueError ∧
  data_vars (State.state p t) !! "prec" = Some (Numpy.full State.shape NaN).
Proof.
  intros Hp Hn H1. unfold State.state, State.shape.
  rewrite State_run_outcome, full_cells.
  by apply (outcome_prec_mismatch _ _ _ _ _ _ p t col).
Qed.

Lemma single_increment_is_broadcast :
  length (Forcing.prec_vals (column two_row_precip "PREC.I-1 (in) ")) = 1%nat ∧
  length (time (Forcing.met_data two_row_precip full_year_temp)) = 365%nat ∧
  ∃ ds, Forcing.run two_row_precip full_year_temp = (inr ds, ds) ∧
        data_vars ds !! "prec" = Some (Numpy.full (365, 1, 1)%nat (lit 254 10)).
Proof.
  split; [compute_done|]. split; [compute_done|].
  eexists. split; [vm_compute; reflexivity|]. compute_done.
Qed.

(** C5, as the code has it.  A series whose length is neither that of the
    variable's time axis nor 1 is rejected by the assignment with numpy's
    [ValueError], and the dataset is left as it was: nothing is truncated or
    padded.  A series of length 1 is not rejected: its entry is broadcast to
    every time step.  In the two cells, a precipitation series of a wrong
    length other than 1 stops the cell with [ValueError] and leaves the
    variable blank. *)
Theorem length_mismatch_raises_unless_single :
  (∀ (ds : Dataset) (name : string) (w v : list value),
     data_vars ds !! name = Some (Numpy.cells w) →
     length v ≠ length w →
     (length v ≠ 1%nat → assign_t00 name v ds = (inl ValueError, ds)) ∧
     (∀ x, v = [x] →
        assign_t00 name v ds
        = (inr (), with_var ds name (Numpy.cells (replicate (length w) x))))) ∧
  (∀ p t col, p !! "PREC.I-1 (in) " = Some col →
     length (Forcing.prec_vals col) ≠ length Forcing.dates →
     length (Forcing.prec_vals col) ≠ 1%nat →
     (Forcing.run p t).1 = inl ValueError ∧
     data_vars (Forcing.met_data p t) !! "prec" = Some (Numpy.full Forcing.shape NaN)) ∧
  (∀ p t col, p !! "PREC.I-1 (in) " = Some col →
     length (State.prec_vals col) ≠ length State.dates →
     length (State.prec_vals col) ≠ 1%nat →
     (State.run p t).1 = inl ValueError ∧
     data_vars (State.state p t) !! "prec" = Some (Numpy.full State.shape NaN)).
Proof.
  split; [|split].
  - intros ds name w v Hvar Hlen. unfold assign_t00. rewrite Hvar, setitem_t00_cells.
    split.
    + intros H1. by rewrite broadcast_to_mismatch.
    + intros x ->. rewrite broadcast_to_single; [done|]. simpl in Hlen. lia.
  - apply Forcing_prec_mismatch.
  - apply State_prec_mismatch.
Qed.

Lemma length_mismatch_raises_unless_single_witness :
  length (Forcing.prec_vals (replicate 365 (lit 0 1))) = 364%nat ∧
  length Forcing.dates = 365%nat ∧
  (Forcing.run {[ "PREC.I-1 (in) " := replicate 365 (lit 0 1) ]} full_year_temp).1
  = inl ValueError.
Proof.
  split; [vm_compute; reflexivity|]. split; [vm_compute; reflexivity|].
  apply (proj1 (proj2 length_mismatch_raises_unless_single)
           {[ "PREC.I-1 (in) " := replicate 365 (lit 0 1) ]} full_year_temp
           (replicate 365 (lit 0 1))).
  - vm_compute; reflexivity.
  - vm_compute. lia.
  - vm_compute. lia.
Defined.

Lemma short_history_returns_short_window :
  (length [lit 0 1; lit 5 10; lit 5 10] < 90)%nat ∧
  State.prec_vals [lit 0 1; lit 5 10; lit 5 10] = [NaN; lit 127 10; lit 0 1] ∧
  (length (column one_row_precip "PREC.I-1 (in) ") < 90)%nat ∧
  ∃ ds, State.run one_row_precip full_year_temp = (inr ds, ds) ∧
        data_vars ds !! "prec" = Some (Numpy.full (90, 1, 1)%nat NaN).
Proof.
  split; [compute_done|]. split; [compute_done|]. split; [compute_done|].
  eexists. split; [vm_compute; reflexivity|]. compute_done.
Qed.

(** C6, as the code has it.  From a column of fewer than 90 rows the slices
    [[-90:]] do not fail: they return the whole differenced precipitation
    series (as many entries as rows, the first one [NaN]) and the whole
    temperature columns.  The cell stops afterwards, at the assignment of
    that shorter window to the 90-day variable, with numpy's [ValueError];
    with a single row the one [NaN] entry is broadcast instead.  A column of
    exactly 90 rows, which has 89 increments, is accepted as well: its
    window starts with the [NaN] of the undefined first difference. *)
Theorem short_history_fails_only_at_assignment :
  (∀ col, (length col < 90)%nat →
     State.prec_vals col = Numpy.mul_scalar (Pandas.diff col) (Num in_to_mm) ∧
     length (State.prec_vals col) = length col ∧
     State.tmin_vals col = col ∧ State.tmax_vals col = col) ∧
  (∀ p t col, p !! "PREC.I-1 (in) " = Some col →
     (length col < 90)%nat → length col ≠ 1%nat →
     (State.run p t).1 = inl ValueError ∧
     data_vars (State.state p t) !! "prec" = Some (Numpy.full State.shape NaN)) ∧
  (∀ x, Numpy.broadcast_to (length State.dates) (State.prec_vals [x])
        = inr (replicate 90 NaN)) ∧
  (∀ col, length col = 90%nat →
     ∃ increments, State.prec_vals col = NaN :: increments ∧
                   length increments = 89%nat ∧
                   Numpy.broadcast_to (length State.dates) (State.prec_vals col)
                   = inr (NaN :: increments)).
Proof.
  assert (Hshort : ∀ {A} (a : list A), (length a < 90)%nat → Numpy.slice_from (-90) a = a).
  { intros A a Ha. unfold Numpy.slice_from.
    change (-90 <? 0) with true. cbn match. by rewrite Z.max_l by lia. }
  assert (H90 : length State.dates = 90%nat) by compute_done.
  split; [|split; [|split]].
  - intros col Hlen. unfold State.prec_vals, State.tmin_vals, State.tmax_vals.
    rewrite (Hshort _ (Pandas.diff col)) by (rewrite length_diff; lia).
    rewrite (Hshort _ col) by done.
    unfold Numpy.mul_scalar. by rewrite length_fmap, length_diff.
  - intros p t col Hp Hlen H1.
    apply (State_prec_mismatch p t col Hp).
    all: unfold State.prec_vals, Numpy.mul_scalar;
      rewrite (Hshort _ (Pandas.diff col)) by (rewrite length_diff; lia);
      rewrite length_fmap, length_diff; lia.
  - intros x. rewrite H90. destruct x; reflexivity.
  - intros col Hlen. destruct col as [|x s]; [done|].
    assert (Hs : length s = 89%nat) by (simpl in Hlen; lia).
    assert (Hw : State.prec_vals (x :: s)
                 = NaN :: Numpy.mul_scalar (Pandas.diff_from x s) (Num in_to_mm)).
    { unfold State.prec_vals. rewrite (slice_from_neg 90) by lia.
      rewrite length_diff, Hlen. reflexivity. }
    exists (Numpy.mul_scalar (Pandas.diff_from x s) (Num in_to_mm)).
    assert (Hl : length (Numpy.mul_scalar (Pandas.diff_from x s) (Num in_to_mm)) = 89%nat).
    { unfold Numpy.mul_scalar. by rewrite length_fmap, length_diff_from. }
    split; [done|]. split; [done|].
    rewrite Hw. apply broadcast_to_same. rewrite H90. simpl. by rewrite Hl.
Qed.

Lemma short_history_fails_only_at_assignment_witness :
  two_row_precip !! "PREC.I-1 (in) " = Some [lit 0 1; lit 1 1] ∧
  (length [lit 0 1; lit 1 1] < 90)%nat ∧
  length [lit 0 1; lit 1 1] ≠ 1%nat ∧
  (State.run two_row_precip full_year_temp).1 = inl ValueError.
Proof.
  split; [reflexivity|]. split; [vm_compute; lia|]. split; [vm_compute; lia|].
  apply (proj1 (proj2 short_history_fails_only_at_assignment)
           two_row_precip full_year_temp [lit 0 1; lit 1 1]).
  - reflexivity.
  - vm_compute; lia.
  - vm_compute; lia.
Defined.


(** C10.  When the precipitation file and the temperature file have the same
    number of rows [N], dropping the first row of the temperature columns
    ([values[1:]]) gives them the length [N - 1] of the increment series, and
    entry [i] of each of the three series comes from raw rows [i] and
    [i + 1].  When [N - 1] is the length of the forcing time axis, the three
    assignments succeed and each time step of the dataset holds, for the
    three variables, the values of that same row. *)
Theorem forcing_series_row_aligned
    (precip_2010 temp_2010 : DataFrame) (N : nat) (col tmin tmax : list value) :
  precip_2010 !! "PREC.I-1 (in) " = Some col →
  temp_2010 !! "TMIN.D-1 (degC) " = Some tmin →
  temp_2010 !! "TMAX.D-1 (degC) " = Some tmax →
  length col = N → length tmin = N → length tmax = N →
  length (Forcing.prec_vals col) = (N - 1)%nat ∧
  length (Forcing.tmin_vals tmin) = (N - 1)%nat ∧
  length (Forcing.tmax_vals tmax) = (N - 1)%nat ∧
  (∀ i a b, col !! i = Some a → col !! S i = Some b →
     Forcing.prec_vals col !! i = Some (vmul (vsub b a) (Num in_to_mm))) ∧
  (∀ i, Forcing.tmin_vals tmin !! i = tmin !! S i) ∧
  (∀ i, Forcing.tmax_vals tmax !! i = tmax !! S i) ∧
  ((N - 1)%nat = length Forcing.dates →
   ∃ ds, Forcing.run precip_2010 temp_2010 = (inr ds, ds) ∧
         ∀ i, cell ds "prec" i = Forcing.prec_vals col !! i ∧
              cell ds "t_min" i = tmin !! S i ∧
              cell ds "t_max" i = tmax !! S i).
Proof.
  intros Hp Ht Hx Lc Lt Lx.
  assert (Hdrop : ∀ a : list value, Forcing.tmin_vals a = drop 1 a)
    by (intros a; apply (slice_from_nonneg 1)).
  assert (Hdrop' : ∀ a : list value, Forcing.tmax_vals a = drop 1 a)
    by (intros a; apply (slice_from_nonneg 1)).
  assert (L1 : length (Forcing.prec_vals col) = (N - 1)%nat).
  { unfold Forcing.prec_vals, Numpy.mul_scalar.
    by rewrite length_fmap, cumulative_to_incremental_length, Lc. }
  assert (L2 : length (Forcing.tmin_vals tmin) = (N - 1)%nat)
    by (rewrite Hdrop, length_drop; lia).
  assert (L3 : length (Forcing.tmax_vals tmax) = (N - 1)%nat)
    by (rewrite Hdrop', length_drop; lia).
  assert (R2 : ∀ i, Forcing.tmin_vals tmin !! i = tmin !! S i)
    by (intros i; by rewrite Hdrop, lookup_drop).
  assert (R3 : ∀ i, Forcing.tmax_vals tmax !! i = tmax !! S i)
    by (intros i; by rewrite Hdrop', lookup_drop).
  repeat (split; [done|]).
  split.
  { intros i a b Ha Hb. unfold Forcing.prec_vals, Numpy.mul_scalar.
    by rewrite list_lookup_fmap, (cumulative_to_incremental_lookup _ _ _ _ Ha Hb). }
  repeat (split; [done|]).
  intros HN. rewrite Forcing_run_outcome.
  destruct (outcome_success Forcing.dates Forcing.lats Forcing.lons
              Forcing.prec_vals Forcing.tmin_vals Forcing.tmax_vals
              precip_2010 temp_2010 col tmin tmax Hp Ht Hx)
    as (ds & Hrun & V1 & V2 & V3); [congruence..|].
  exists ds. split; [done|]. intros i. unfold cell.
  rewrite V1, V2, V3. simpl. by rewrite !get_t00_cells, R2, R3.
Qed.

Lemma forcing_series_row_aligned_witness :
  length (Forcing.prec_vals (column full_year_precip "PREC.I-1 (in) ")) = 365%nat ∧
  length (Forcing.tmin_vals (column full_year_temp "TMIN.D-1 (degC) ")) = 365%nat ∧
  length (Forcing.tmax_vals (column full_year_temp "TMAX.D-1 (degC) ")) = 365%nat.
Proof.
  destruct (forcing_series_row_aligned full_year_precip full_year_temp 366
              (column full_year_precip "PREC.I-1 (in) ")
              (column full_year_temp "TMIN.D-1 (degC) ")
              (column full_year_temp "TMAX.D-1 (degC) "))
    as (L1 & L2 & L3 & _); [vm_compute; reflexivity..|].
  by repeat split.
Defined.

(** * Further properties of the two cells *)

Section more_outcome_lemmas.
Import Numpy.

Lemma broadcast_to_succeeds_iff n v :
  (∃ v', broadcast_to n v = inr v') ↔ length v = n ∨ length v = 1%nat.
Proof.
  split.
  - intros [v' Hb]. destruct (decide (length v = n)) as [|Hn]; [by left|].
    destruct (decide (length v = 1%nat)) as [|H1]; [by right|].
    by rewrite broadcast_to_mismatch in Hb.
  - intros [Hn|H1].
    + exists v. by apply broadcast_to_same.
    + destruct v as [|x [|y v]]; try done.
      destruct (decide (n = 1%nat)) as [->|Hn].
      * exists [x]. by apply broadcast_to_same.
      * exists (replicate n x). by apply broadcast_to_single.
Qed.

Context (dates : list date) (lats lons : list value).
Context (pv tv xv : list value → list value).

Local Abbreviation run := (outcome dates lats lons pv tv xv).
Local Abbreviation n := (length dates).
Local Abbreviation blank := (cells (replicate (length dates) NaN)).

Lemma outcome_succeeds_iff p t :
  (∃ ds, (run p t).1 = inr ds) ↔
  ∃ col tmin tmax,
    p !! "PREC.I-1 (in) " = Some col ∧
    t !! "TMIN.D-1 (degC) " = Some tmin ∧
    t !! "TMAX.D-1 (degC) " = Some tmax ∧
    (length (pv col) = n ∨ length (pv col) = 1%nat) ∧
    (length (tv tmin) = n ∨ length (tv tmin) = 1%nat) ∧
    (length (xv tmax) = n ∨ length (xv tmax) = 1%nat).
Proof.
  unfold outcome. split.
  - intros [ds Hds].
    destruct (p !! "PREC.I-1 (in) ") as [col|]; [|done].
    destruct (broadcast_to n (pv col)) as [e1|v1] eqn:H1; [done|].
    destruct (t !! "TMIN.D-1 (degC) ") as [tmin|]; [|done].
    destruct (t !! "TMAX.D-1 (degC) ") as [tmax|]; [|done].
    destruct (broadcast_to n (tv tmin)) as [e2|v2] eqn:H2; [done|].
    destruct (broadcast_to n (xv tmax)) as [e3|v3] eqn:H3; [done|].
    exists col, tmin, tmax. repeat (split; [done|]).
    split; [|split]; apply broadcast_to_succeeds_iff; eauto.
  - intros (col & tmin & tmax & -> & -> & -> & H1 & H2 & H3).
    apply broadcast_to_succeeds_iff in H1 as [v1 ->].
    apply broadcast_to_succeeds_iff in H2 as [v2 ->].
    apply broadcast_to_succeeds_iff in H3 as [v3 ->].
    by eexists.
Qed.

Lemma outcome_no_precip p t :
  p !! "PREC.I-1 (in) " = None →
  (run p t).1 = inl (KeyError "PREC.I-1 (in) ") ∧
  data_vars (run p t).2 !! "prec" = Some blank ∧
  data_vars (run p t).2 !! "t_min" = Some blank ∧
  data_vars (run p t).2 !! "t_max" = Some blank.
Proof. intros Hp. unfold outcome. rewrite Hp. simpl. by simplify_map_eq. Qed.


End more_outcome_lemmas.

Section window_lengths.

Lemma Forcing_prec_vals_length col :
  length (Forcing.prec_vals col) = (length col - 1)%nat.
Proof.
  unfold Forcing.prec_vals, Numpy.mul_scalar.
  by rewrite length_fmap, cumulative_to_incremental_length.
Qed.

Lemma Forcing_temp_vals_length col :
  length (Forcing.tmin_vals col) = (length col - 1)%nat ∧
  length (Forcing.tmax_vals col) = (length col - 1)%nat.
Proof.
  unfold Forcing.tmin_vals, Forcing.tmax_vals.
  rewrite (slice_from_nonneg 1), length_drop. done.
Qed.

Lemma slice_last_90 {A} (a : list A) :
  Numpy.slice_from (-90) a = drop (length a - 90) a.
Proof. apply (slice_from_neg 90). lia. Qed.

Lemma State_prec_vals_length col :
  length (State.prec_vals col) = (length col `min` 90)%nat.
Proof.
  unfold State.prec_vals, Numpy.mul_scalar.
  rewrite length_fmap, slice_last_90, length_drop, length_diff. lia.
Qed.

Lemma State_temp_vals_length col :
  length (State.tmin_vals col) = (length col `min` 90)%nat ∧
  length (State.tmax_vals col) = (length col `min` 90)%nat.
Proof.
  unfold State.tmin_vals, State.tmax_vals.
  rewrite slice_last_90, length_drop. lia.
Qed.

Lemma Forcing_dates_length : length Forcing.dates = 365%nat.
Proof. compute_done. Qed.

Lemma State_dates_length : length State.dates = 90%nat.
Proof. compute_done. Qed.

End window_lengths.

(** The forcing cell runs to the end exactly when the three columns exist
    and each has 366 rows, or 2 rows (whose single difference, or single
    remaining temperature, is then broadcast to all 365 days). *)
Theorem forcing_completes_iff (precip_2010 temp_2010 : DataFrame) :
  (∃ ds, (Forcing.run precip_2010 temp_2010).1 = inr ds) ↔
  ∃ col tmin tmax,
    precip_2010 !! "PREC.I-1 (in) " = Some col ∧
    temp_2010 !! "TMIN.D-1 (degC) " = Some tmin ∧
    temp_2010 !! "TMAX.D-1 (degC) " = Some tmax ∧
    (length col = 366 ∨ length col = 2)%nat ∧
    (length tmin = 366 ∨ length tmin = 2)%nat ∧
    (length tmax = 366 ∨ length tmax = 2)%nat.
Proof.
  rewrite Forcing_run_outcome, outcome_succeeds_iff.
  rewrite Forcing_dates_length.
  split; intros (col & tmin & tmax & Hp & Hmin & Hmax & H1 & H2 & H3);
    exists col, tmin, tmax; repeat (split; [done|]);
    rewrite Forcing_prec_vals_length in *;
    destruct (Forcing_temp_vals_length tmin) as [L2 _];
    destruct (Forcing_temp_vals_length tmax) as [_ L3];
    rewrite L2, L3 in *; lia.
Qed.

(** The state cell runs to the end exactly when the three columns exist and
    each has at least 90 rows, or a single row (which is then broadcast to
    all 90 days). *)
Theorem state_completes_iff (precip_2009 temp_2009 : DataFrame) :
  (∃ ds, (State.run precip_2009 temp_2009).1 = inr ds) ↔
  ∃ col tmin tmax,
    precip_2009 !! "PREC.I-1 (in) " = Some col ∧
    temp_2009 !! "TMIN.D-1 (degC) " = Some tmin ∧
    temp_2009 !! "TMAX.D-1 (degC) " = Some tmax ∧
    (90 ≤ length col ∨ length col = 1)%nat ∧
    (90 ≤ length tmin ∨ length tmin = 1)%nat ∧
    (90 ≤ length tmax ∨ length tmax = 1)%nat.
Proof.
  rewrite State_run_outcome, outcome_succeeds_iff.
  rewrite State_dates_length.
  split; intros (col & tmin & tmax & Hp & Hmin & Hmax & H1 & H2 & H3);
    exists col, tmin, tmax; repeat (split; [done|]);
    rewrite State_prec_vals_length in *;
    destruct (State_temp_vals_length tmin) as [L2 _];
    destruct (State_temp_vals_length tmax) as [_ L3];
    rewrite L2, L3 in *; lia.
Qed.

(** A file without the column ["PREC.I-1 (in) "] (the label is matched to the
    letter, trailing space included) stops either cell with [KeyError] before
    anything is assigned: the three variables exist and are all [NaN]. *)
Theorem missing_precipitation_column (precip temp : DataFrame) :
  precip !! "PREC.I-1 (in) " = None →
  ((Forcing.run precip temp).1 = inl (KeyError "PREC.I-1 (in) ") ∧
   data_vars (Forcing.met_data precip temp) !! "prec" = Some (Numpy.full Forcing.shape NaN) ∧
   data_vars (Forcing.met_data precip temp) !! "t_min" = Some (Numpy.full Forcing.shape NaN) ∧
   data_vars (Forcing.met_data precip temp) !! "t_max" = Some (Numpy.full Forcing.shape NaN)) ∧
  ((State.run precip temp).1 = inl (KeyError "PREC.I-1 (in) ") ∧
   data_vars (State.state precip temp) !! "prec" = Some (Numpy.full State.shape NaN) ∧
   data_vars (State.state precip temp) !! "t_min" = Some (Numpy.full State.shape NaN) ∧
   data_vars (State.state precip temp) !! "t_max" = Some (Numpy.full State.shape NaN)).
Proof.
  intros Hp. split.
  - unfold Forcing.met_data, Forcing.shape. rewrite Forcing_run_outcome, full_cells.
    by apply outcome_no_precip.
  - unfold State.state, State.shape. rewrite State_run_outcome, full_cells.
    by apply outcome_no_precip.
Qed.

Lemma missing_precipitation_column_witness :
  wrong_label_precip !! "PREC.I-1 (in) " = None ∧
  (Forcing.run wrong_label_precip full_year_temp).1 = inl (KeyError "PREC.I-1 (in) ").
Proof.
  split; [reflexivity|].
  apply (missing_precipitation_column wrong_label_precip full_year_temp).
  reflexivity.
Defined.



(** * Further properties of the series *)

Section more_series_lemmas.

Lemma State_prec_vals_drop col :
  (91 ≤ length col)%nat →
  State.prec_vals col = drop (length col - 91) (Forcing.prec_vals col).
Proof.
  intros Hlen. unfold State.prec_vals, Forcing.prec_vals, Numpy.mul_scalar.
  rewrite slice_last_90, length_diff, <- fmap_drop. f_equal.
  unfold cumulative_to_incremental.
  rewrite (slice_from_nonneg 1), drop_drop. f_equal. lia.
Qed.

(** Entry [i] of the forcing precipitation series, from the two readings it
    comes from. *)
Lemma Forcing_prec_vals_lookup_inv col i x :
  Forcing.prec_vals col !! i = Some x →
  ∃ a b, col !! i = Some a ∧ col !! S i = Some b ∧ x = vmul (vsub b a) (Num in_to_mm).
Proof.
  intros Hx. pose proof (lookup_lt_Some _ _ _ Hx) as Hi.
  rewrite Forcing_prec_vals_length in Hi.
  destruct (lookup_lt_is_Some_2 col i) as [a Ha]; [lia|].
  destruct (lookup_lt_is_Some_2 col (S i)) as [b Hb]; [lia|].
  exists a, b. repeat (split; [done|]).
  unfold Forcing.prec_vals, Numpy.mul_scalar in Hx.
  rewrite list_lookup_fmap, (cumulative_to_incremental_lookup _ _ _ _ Ha Hb) in Hx.
  by injection Hx as <-.
Qed.

End more_series_lemmas.

(** A single missing reading spoils exactly the two increments next to it:
    when reading [k] is [NaN] and every other reading is a number, entry [i]
    of the forcing precipitation series is [NaN] exactly for [i = k - 1] and
    [i = k], and a number everywhere else. *)
Theorem missing_reading_spoils_two_increments (col : list value) (k : nat) :
  col !! k = Some NaN →
  (∀ j x, j ≠ k → col !! j = Some x → is_num x) →
  ∀ i x, Forcing.prec_vals col !! i = Some x →
         (x = NaN ↔ i = k ∨ S i = k) ∧ (is_num x ↔ i ≠ k ∧ S i ≠ k).
Proof.
  intros Hk Hothers i x Hx.
  apply Forcing_prec_vals_lookup_inv in Hx as (a & b & Ha & Hb & ->).
  destruct (decide (i = k)) as [->|Hik].
  { rewrite Hk in Ha. injection Ha as <-. destruct b; simpl; split; split; try done;
      try (intros; by left); intros [? _]; done. }
  destruct (decide (S i = k)) as [<-|HSik].
  { rewrite Hk in Hb. injection Hb as <-. simpl. split; split; try done;
      try (intros; by right); intros [_ ?]; done. }
  pose proof (Hothers i a Hik Ha) as Hna.
  pose proof (Hothers (S i) b HSik Hb) as Hnb.
  destruct a as [|qa]; [done|]. destruct b as [|qb]; [done|]. simpl.
  split; split; try done. intros [?|?]; done.
Qed.

Lemma missing_reading_spoils_two_increments_witness :
  gap_cumulative !! 2%nat = Some NaN ∧
  Forcing.prec_vals gap_cumulative !! 0%nat = Some (lit 127 10) ∧
  Forcing.prec_vals gap_cumulative !! 1%nat = Some NaN ∧
  Forcing.prec_vals gap_cumulative !! 2%nat = Some NaN ∧
  Forcing.prec_vals gap_cumulative !! 3%nat = Some (lit 381 50) ∧
  is_num (lit 127 10).
Proof.
  do 5 (split; [reflexivity|]).
  assert (Hothers : ∀ j x, j ≠ 2%nat → gap_cumulative !! j = Some x → is_num x).
  { intros [|[|[|[|[|j]]]]] x Hj Hx; simpl in Hx; try discriminate;
      try (by injection Hx as <-); done. }
  destruct (missing_reading_spoils_two_increments gap_cumulative 2%nat
              eq_refl Hothers 0%nat (lit 127 10) eq_refl) as [_ Hnum].
  apply Hnum. split; discriminate.
Defined.

(** The state cell lines its three series up from their last rows.  With at
    least 91 precipitation rows and at least 90 rows in each temperature
    column (the row counts need not agree) it runs to the end, and day [i]
    of the 90 holds the increment and the temperatures found [90 - i] rows
    before the end of their own columns. *)
Theorem state_rows_aligned_from_the_end
    (precip_2009 temp_2009 : DataFrame) (col tmin tmax : list value) :
  precip_2009 !! "PREC.I-1 (in) " = Some col →
  temp_2009 !! "TMIN.D-1 (degC) " = Some tmin →
  temp_2009 !! "TMAX.D-1 (degC) " = Some tmax →
  (91 ≤ length col)%nat → (90 ≤ length tmin)%nat → (90 ≤ length tmax)%nat →
  ∃ ds, State.run precip_2009 temp_2009 = (inr ds, ds) ∧
        ∀ i, (i < 90)%nat →
          (∀ a b, col !! (length col - 91 + i)%nat = Some a →
                  col !! (length col - 90 + i)%nat = Some b →
                  cell ds "prec" i = Some (vmul (vsub b a) (Num in_to_mm))) ∧
          cell ds "t_min" i = tmin !! (length tmin - 90 + i)%nat ∧
          cell ds "t_max" i = tmax !! (length tmax - 90 + i)%nat.
Proof.
  intros Hp Hmin Hmax Lc Lmin Lmax. rewrite State_run_outcome.
  destruct (State_temp_vals_length tmin) as [L2 _].
  destruct (State_temp_vals_length tmax) as [_ L3].
  destruct (outcome_success State.dates State.lats State.lons
              State.prec_vals State.tmin_vals State.tmax_vals
              precip_2009 temp_2009 col tmin tmax Hp Hmin Hmax)
    as (ds & Hrun & V1 & V2 & V3).
  { rewrite State_prec_vals_length, State_dates_length. lia. }
  { rewrite L2, State_dates_length. lia. }
  { rewrite L3, State_dates_length. lia. }
  exists ds. split; [done|]. intros i Hi. unfold cell.
  rewrite V1, V2, V3. simpl. rewrite !get_t00_cells.
  split; [|split].
  - intros a b Ha Hb. rewrite State_prec_vals_drop, lookup_drop by done.
    unfold Forcing.prec_vals, Numpy.mul_scalar. rewrite list_lookup_fmap.
    replace (length col - 90 + i)%nat with (S (length col - 91 + i)) in Hb by lia.
    by rewrite (cumulative_to_incremental_lookup _ _ _ _ Ha Hb).
  - unfold State.tmin_vals. by rewrite slice_last_90, lookup_drop.
  - unfold State.tmax_vals. by rewrite slice_last_90, lookup_drop.
Qed.

Lemma state_rows_aligned_from_the_end_witness :
  (91 ≤ length (column full_year_precip "PREC.I-1 (in) "))%nat ∧
  (90 ≤ length temp_92_rows)%nat ∧
  ∃ ds, State.run full_year_precip short_temp = (inr ds, ds) ∧
        cell ds "t_min" 0%nat = Some (lit 3 1).
Proof.
  split; [vm_compute; lia|]. split; [vm_compute; lia|].
  destruct (state_rows_aligned_from_the_end full_year_precip short_temp
              (column full_year_precip "PREC.I-1 (in) ") temp_92_rows temp_92_rows)
    as (ds & Hrun & Hcells); [reflexivity..|vm_compute; lia|vm_compute; lia|vm_compute; lia|].
  exists ds. split; [exact Hrun|].
  destruct (Hcells 0%nat) as (_ & Hmin & _); [lia|].
  rewrite Hmin. reflexivity.
Defined.
